(** * Calculator with history, and the math utilities

    A shallow embedding of

    - [examples/projects/python/calculator.py] (class [Calculator]) and
    - [examples/python-math-utils/math_utils.py]
      ([factorial], [is_prime], [gcd], [fibonacci], [power]),

    followed by the properties the specification states about them.

    Numbers.  The operands of a [Calculator] are Python [int]s and
    [float]s.  An [int] is an unbounded integer ([Z]).  A [float] is an
    IEEE 754 binary64 value ([spec_float] at precision 53 and maximal
    exponent 1024), with its two zeros, its infinities and NaN; every
    Python float is a valid one ([valid_binary]).  The arithmetic is
    Python's: exact on two ints, IEEE with rounding to nearest even on
    floats, an int converted to float first when the other operand is a
    float, [OverflowError] when that int or the quotient of two ints is
    beyond the floats.  The arguments of the math utilities are ints.

    Limits of an interpreter run (recursion depth, memory, the optional
    cap on the digits of an int turned to text) are not represented. *)

From Stdlib Require Import ZArith String List DecimalString Lia Bool.
From Stdlib Require Import SpecFloat.
From Equations Require Import Equations.
Import ListNotations.

Open Scope string_scope.
Open Scope Z_scope.

(** ** Python values shared by both files *)

Module Py.

(** The exception classes the two files meet.  [DivisionByZeroError] is
    the class [calculator.py] declares; the others are builtins; the text
    the interpreter attaches to [ZeroDivisionError] and [OverflowError]
    is not recorded. *)
Inductive exception : Type :=
| DivisionByZeroError (msg : string)
| ValueError (msg : string)
| ZeroDivisionError
| OverflowError.

(** Outcome of a call: the returned value or the raised exception. *)
Inductive result (A : Type) : Type :=
| Return (v : A)
| Raise (e : exception).
Arguments Return {A} v.
Arguments Raise {A} e.

Definition returns {A} (r : result A) : bool :=
  match r with Return _ => true | Raise _ => false end.

(** [f"{n}"] for an int [n]: its decimal digits, with a leading [-] for
    a negative number. *)
Definition str (n : Z) : string := NilZero.string_of_int (Z.to_int n).

(** *** Floats *)

Definition prec : Z := 53.
Definition emax : Z := 1024.

(** An int or a float. *)
Inductive number : Type :=
| PyInt (n : Z)
| PyFloat (x : spec_float).

(** [float(n)] as arithmetic applies it to an int operand: the nearest
    float, ties to even; [OverflowError] when that is beyond the largest
    float. *)
Definition int_to_float (n : Z) : result spec_float :=
  match binary_normalize prec emax n 0 false with
  | S754_infinity _ => Raise OverflowError
  | x => Return x
  end.

Definition to_float (a : number) : result spec_float :=
  match a with
  | PyInt n => int_to_float n
  | PyFloat x => Return x
  end.

(** The quotient of two positive ints rounded to the nearest float, ties
    to even, with the sign [s]. *)
Definition round_quotient (s : bool) (n d : positive) : spec_float :=
  SFdiv prec emax (S754_finite s n 0) (S754_finite false d 0).

(** [a / b] on two ints: the exact quotient rounded once; a zero of the
    sign of the quotient for [a == 0]; [OverflowError] when the rounded
    quotient is beyond the largest float. *)
Definition int_truediv (a b : Z) : result spec_float :=
  match a, b with
  | _, Z0 => Raise ZeroDivisionError
  | Z0, _ => Return (S754_zero (b <? 0))
  | _, _ =>
      match round_quotient (xorb (a <? 0) (b <? 0))
                           (Z.to_pos (Z.abs a)) (Z.to_pos (Z.abs b)) with
      | S754_infinity _ => Raise OverflowError
      | x => Return x
      end
  end.

(** A float operation on two numbers, each turned to float first. *)
Definition float_op (op : spec_float -> spec_float -> spec_float)
  (a b : number) : result number :=
  match to_float a with
  | Raise e => Raise e
  | Return x =>
      match to_float b with
      | Raise e => Raise e
      | Return y => Return (PyFloat (op x y))
      end
  end.

(** [a + b], [a - b], [a * b] *)
Definition py_add (a b : number) : result number :=
  match a, b with
  | PyInt x, PyInt y => Return (PyInt (x + y))
  | _, _ => float_op (SFadd prec emax) a b
  end.

Definition py_sub (a b : number) : result number :=
  match a, b with
  | PyInt x, PyInt y => Return (PyInt (x - y))
  | _, _ => float_op (SFsub prec emax) a b
  end.

Definition py_mul (a b : number) : result number :=
  match a, b with
  | PyInt x, PyInt y => Return (PyInt (x * y))
  | _, _ => float_op (SFmul prec emax) a b
  end.

(** [b == 0]: the int [0], or one of the float zeros. *)
Definition is_zero (b : number) : bool :=
  match b with
  | PyInt n => n =? 0
  | PyFloat (S754_zero _) => true
  | PyFloat _ => false
  end.

(** [a / b]: a float in every case; [ZeroDivisionError] on a zero
    divisor. *)
Definition py_truediv (a b : number) : result number :=
  match a, b with
  | PyInt x, PyInt y =>
      match int_truediv x y with
      | Return q => Return (PyFloat q)
      | Raise e => Raise e
      end
  | _, _ =>
      match to_float a with
      | Raise e => Raise e
      | Return x =>
          match to_float b with
          | Raise e => Raise e
          | Return y =>
              if is_zero b then Raise ZeroDivisionError
              else Return (PyFloat (SFdiv prec emax x y))
          end
      end
  end.

(** *** The text of a float

    [f"{x}"] for a float is [repr(x)]: the shortest decimal digits that
    read back as [x], the nearest to [x] when several do, laid out with
    an exponent from [1e16] up and below [0.0001]. *)

Definition float_eqb (x y : spec_float) : bool :=
  match x, y with
  | S754_zero s, S754_zero s' => Bool.eqb s s'
  | S754_infinity s, S754_infinity s' => Bool.eqb s s'
  | S754_nan, S754_nan => true
  | S754_finite s m e, S754_finite s' m' e' =>
      Bool.eqb s s' && Pos.eqb m m' && Z.eqb e e'
  | _, _ => false
  end.

(** Number of decimal digits of a positive int. *)
Definition ndigits (n : Z) : Z := Z.of_nat (String.length (str n)).

(** The fraction [n / d] divided by [10 ^ k]. *)
Definition scale10 (n d k : Z) : Z * Z :=
  if 0 <=? k then (n, d * 10 ^ k) else (n * 10 ^ (- k), d).

(** The least [k] with [n / d < 10 ^ k]. *)
Definition decimal_point (n d : Z) : Z :=
  let k := ndigits n - ndigits d in
  let (n', d') := scale10 n d k in
  if n' <? d' then k else k + 1.

(** Does the decimal [c * 10 ^ p] read back as the float [m * 2 ^ e]? *)
Definition rounds_to (m : positive) (e : Z) (c p : Z) : bool :=
  let (n, d) := scale10 c 1 (- p) in
  float_eqb (round_quotient false (Z.to_pos n) (Z.to_pos d))
            (S754_finite false m e).

(** The digits for [n / d] ending at the decimal place [p]: [n / d]
    itself when it ends there, else the one of its two neighbours at that
    place that reads back as the float, the nearer one when both do (the
    even one on a tie). *)
Definition candidate (m : positive) (e : Z) (n d : Z) (p : Z) : option Z :=
  let (n', d') := scale10 n d p in
  let lo := n' / d' in
  let hi := lo + 1 in
  if n' mod d' =? 0 then Some lo
  else
    match rounds_to m e lo p, rounds_to m e hi p with
    | true, true =>
        match 2 * n' ?= (2 * lo + 1) * d' with
        | Lt => Some lo
        | Gt => Some hi
        | Eq => Some (if Z.even lo then lo else hi)
        end
    | true, false => Some lo
    | false, true => Some hi
    | false, false => None
    end.

(** Try [len], [len + 1], ... digits, at most [fuel] lengths; 17 digits
    tell any two floats apart, so the search from 1 ends within 17 on a
    valid float (after them the digits are cut at the last place tried). *)
Fixpoint shortest (fuel : nat) (m : positive) (e : Z) (n d : Z)
  (dp : Z) (len : Z) : Z * Z :=
  let p := dp - len in
  match fuel with
  | O => (fst (scale10 n d p) / snd (scale10 n d p), p)
  | S fuel' =>
      match candidate m e n d p with
      | Some c => (c, p)
      | None => shortest fuel' m e n d dp (len + 1)
      end
  end.

Fixpoint strip_zeros (fuel : nat) (c p : Z) : Z * Z :=
  match fuel with
  | O => (c, p)
  | S fuel' =>
      if (c mod 10 =? 0) && negb (c =? 0)
      then strip_zeros fuel' (c / 10) (p + 1)
      else (c, p)
  end.

(** The digits of [m * 2 ^ e] and the place of the decimal point: the
    value is [0.digits * 10 ^ point]. *)
Definition digits_of (m : positive) (e : Z) : string * Z :=
  let (n, d) :=
    if 0 <=? e then (Zpos m * 2 ^ e, 1) else (Zpos m, 2 ^ (- e)) in
  let dp := decimal_point n d in
  let (c, p) := shortest 17 m e n d dp 1 in
  let (c', p') := strip_zeros 20 c p in
  (str c', p' + ndigits c').

Fixpoint zeros (k : nat) : string :=
  match k with
  | O => ""
  | S k' => "0" ++ zeros k'
  end.

(** The exponent: a sign and at least two digits. *)
Definition exponent_text (x : Z) : string :=
  (if x <? 0 then "-" else "+") ++
  (if Z.abs x <? 10 then "0" else "") ++ str (Z.abs x).

Definition format_digits (ds : string) (point : Z) : string :=
  let len := Z.of_nat (String.length ds) in
  if (point <=? -4) || (16 <? point) then
    substring 0 1 ds ++
    (if 1 <? len then "." ++ substring 1 (String.length ds - 1) ds else "") ++
    "e" ++ exponent_text (point - 1)
  else if point <=? 0 then
    "0." ++ zeros (Z.to_nat (- point)) ++ ds
  else if len <=? point then
    ds ++ zeros (Z.to_nat (point - len)) ++ ".0"
  else
    substring 0 (Z.to_nat point) ds ++ "." ++
    substring (Z.to_nat point) (String.length ds - Z.to_nat point) ds.

Definition float_repr (x : spec_float) : string :=
  match x with
  | S754_zero s => if s then "-0.0" else "0.0"
  | S754_infinity s => if s then "-inf" else "inf"
  | S754_nan => "nan"
  | S754_finite s m e =>
      let (ds, point) := digits_of m e in
      (if s then "-" else "") ++ format_digits ds point
  end.

(** The float a decimal literal of the program text denotes, such as
    [1.5] for [literal 15 10]: the nearest float to the fraction. *)
Definition literal (n d : positive) : spec_float := round_quotient false n d.

(** [f"{a}"] *)
Definition fmt (a : number) : string :=
  match a with
  | PyInt n => str n
  | PyFloat x => float_repr x
  end.

End Py.
Import Py.

(** ** calculator.py *)

Module Calc.

(** An instance holds one attribute, the list [self.history]. *)
Record Calculator : Type := mkCalculator { history : list string }.

(** Methods run in a state-and-exception monad over the instance: a
    method receives [self] and gives back its outcome and [self] after
    the call.  A [raise] leaves [self] as it is at that point. *)
Definition method (A : Type) : Type := Calculator -> result A * Calculator.

Definition ret {A} (v : A) : method A := fun self => (Return v, self).

Definition raise {A} (e : exception) : method A :=
  fun self => (Raise e, self).

Definition bind {A B} (m : method A) (k : A -> method B) : method B :=
  fun self =>
    match m self with
    | (Return v, self') => k v self'
    | (Raise e, self') => (Raise e, self')
    end.

(** An expression of the host language inside a method: its value, or
    the exception it raises going up through the method. *)
Definition lift {A} (r : result A) : method A := fun self => (r, self).

(** [self.history.append(record)] *)
Definition history_append (record : string) : method unit :=
  fun self => (Return tt, mkCalculator (history self ++ [record])%list).

(** [self.history = records] *)
Definition history_assign (records : list string) : method unit :=
  fun _ => (Return tt, mkCalculator records).

Notation "x <- m ;; k" := (bind m (fun x => k))
  (at level 61, m at next level, right associativity).
Notation "m ;;; k" := (bind m (fun _ => k))
  (at level 61, right associativity).

(** [Calculator()] *)
Definition init : Calculator := mkCalculator [].

Definition add (a b : number) : method number :=
  result <- lift (py_add a b) ;;
  history_append (fmt a ++ " + " ++ fmt b ++ " = " ++ fmt result) ;;;
  ret result.

Definition subtract (a b : number) : method number :=
  result <- lift (py_sub a b) ;;
  history_append (fmt a ++ " - " ++ fmt b ++ " = " ++ fmt result) ;;;
  ret result.

Definition multiply (a b : number) : method number :=
  result <- lift (py_mul a b) ;;
  history_append (fmt a ++ " * " ++ fmt b ++ " = " ++ fmt result) ;;;
  ret result.

Definition divide (a b : number) : method number :=
  if is_zero b then raise (DivisionByZeroError "Cannot divide by zero")
  else
    result <- lift (py_truediv a b) ;;
    history_append (fmt a ++ " / " ++ fmt b ++ " = " ++ fmt result) ;;;
    ret result.

Definition clear_history : method (list string) :=
  history_assign [] ;;;
  ret [].

(** *** Sequences of calls

    A client of one instance makes calls one after the other and catches
    what they raise (as the tests do with [pytest.raises]), so a sequence
    goes on after a failed call. *)

Inductive call : Type :=
| Add (a b : number)
| Subtract (a b : number)
| Multiply (a b : number)
| Divide (a b : number)
| ClearHistory.

(** What a call hands back: a number or a list of records. *)
Inductive value : Type :=
| Num (x : number)
| Records (l : list string).

Definition exec (c : call) : method value :=
  match c with
  | Add a b => r <- add a b ;; ret (Num r)
  | Subtract a b => r <- subtract a b ;; ret (Num r)
  | Multiply a b => r <- multiply a b ;; ret (Num r)
  | Divide a b => r <- divide a b ;; ret (Num r)
  | ClearHistory => r <- clear_history ;; ret (Records r)
  end.

(** The outcome of every call of the sequence, in order, and the instance
    after the last one. *)
Fixpoint run (cs : list call) (self : Calculator)
  : list (call * result value) * Calculator :=
  match cs with
  | [] => ([], self)
  | c :: cs' =>
      let (r, self1) := exec c self in
      let (trace, self2) := run cs' self1 in
      ((c, r) :: trace, self2)
  end.

(** The part of a trace made since construction or since the most recent
    [clear_history]: walking the trace in order, a [clear_history] drops
    what was seen so far. *)
Definition seen_step (seen : list (call * result value))
  (ev : call * result value) : list (call * result value) :=
  match fst ev with
  | ClearHistory => []
  | _ => (seen ++ [ev])%list
  end.

Definition since_last_clear (trace : list (call * result value))
  : list (call * result value) :=
  fold_left seen_step trace [].

(** A call counts when it returned. *)
Definition counted (ev : call * result value) : bool := returns (snd ev).

(** Number of successful arithmetic calls since construction or the most
    recent [clear_history]. *)
Definition successful_calls (trace : list (call * result value)) : nat :=
  length (filter counted (since_last_clear trace)).

End Calc.

(** ** math_utils.py *)

Module MathUtils.

(** [n == 0] comes first, so [n < 0] is tested on a nonzero [n]; the
    recursion goes down from a positive [n] to [0]. *)
Equations? factorial (n : Z) : result Z by wf (Z.to_nat n) lt :=
factorial n with Z.eq_dec n 0 := {
  | left _ => Return 0
  | right _ with Z_lt_dec n 0 := {
    | left _ =>
        Raise (ValueError "Factorial is not defined for negative numbers")
    | right _ =>
        match factorial (n - 1) with
        | Return r => Return (n * r)
        | Raise e => Raise e
        end } }.
Proof. lia. Qed.

(** [range(start, stop)] *)
Definition range (start stop : Z) : list Z :=
  map (fun k => start + Z.of_nat k) (seq 0 (Z.to_nat (stop - start))).

(** The [for] loop of [is_prime] over the values [i] still to visit:
    [return False] at the first [i] with [n % i == 0], [return True] when
    the values are used up. *)
Fixpoint is_prime_loop (n : Z) (todo : list Z) : bool :=
  match todo with
  | [] => true
  | i :: todo' => if n mod i =? 0 then false else is_prime_loop n todo'
  end.

Definition is_prime (n : Z) : bool :=
  if n <? 2 then false
  else is_prime_loop n (range 2 (n - 1)).

(** One test of [while b:] and, when [b] is nonzero, one run of the body
    [a, b = b, a + b]. *)
Inductive gcd_loop : Z -> Z -> Z -> Prop :=
| gcd_exit a : gcd_loop a 0 a
| gcd_iter a b r : b <> 0 -> gcd_loop b (a + b) r -> gcd_loop a b r.

(** The same loop cut off after [fuel] tests of the condition; [None]
    when it is still running then. *)
Fixpoint gcd_fuel (fuel : nat) (a b : Z) : option Z :=
  match fuel with
  | O => None
  | S fuel' => if b =? 0 then Some a else gcd_fuel fuel' b (a + b)
  end.

(** [gcd(a, b)] returns [r]. *)
Definition gcd (a b r : Z) : Prop := gcd_loop a b r.

Equations? fibonacci (n : Z) : Z by wf (Z.to_nat n) lt :=
fibonacci n with Z_le_dec n 1 := {
  | left _ => n
  | right _ => fibonacci (n - 1) * fibonacci (n - 2) }.
Proof. all: lia. Qed.

Section WithBuiltinPower.

(** [base ** exponent] on two ints with [exponent < 0] is a float
    operation of the interpreter, built on the [pow] of the C library: it
    is not part of the repository and is taken as given, with whatever it
    returns or raises. *)
Variable pow_negative : Z -> Z -> result spec_float.

(** [power] returns the int [1] or [result], or the float
    [base ** exponent]. *)
Definition power (base exponent : Z) : result number :=
  if exponent =? 0 then Return (PyInt 1)
  else if exponent <? 0 then
    match pow_negative base exponent with
    | Return x => Return (PyFloat x)
    | Raise e => Raise e
    end
  else
    Return (PyInt (fold_left (fun result _ => result + base)
                             (range 0 exponent) 1)).

End WithBuiltinPower.

End MathUtils.

(** ** The history as a log of the calls *)

From Stdlib Require Import Ascii Znumtheory DecimalPos DecimalZ.

Module CalcLog.
Import Calc.

(** The record behind an outcome, read off the four f-strings: a call
    that returned a number wrote its operands, its operator and that
    number; a call that raised, and [clear_history], wrote none. *)
Definition record_of (ev : call * result value) : option string :=
  match ev with
  | (Add a b, Return (Num r)) =>
      Some (fmt a ++ " + " ++ fmt b ++ " = " ++ fmt r)
  | (Subtract a b, Return (Num r)) =>
      Some (fmt a ++ " - " ++ fmt b ++ " = " ++ fmt r)
  | (Multiply a b, Return (Num r)) =>
      Some (fmt a ++ " * " ++ fmt b ++ " = " ++ fmt r)
  | (Divide a b, Return (Num r)) =>
      Some (fmt a ++ " / " ++ fmt b ++ " = " ++ fmt r)
  | _ => None
  end.

(** The records of a trace, in the order of the calls. *)
Definition log (trace : list (call * result value)) : list string :=
  flat_map
    (fun ev => match record_of ev with Some r => [r] | None => [] end)
    trace.

(** A call on two ints. *)
Definition int_operands (c : call) : bool :=
  match c with
  | Add (PyInt _) (PyInt _) | Subtract (PyInt _) (PyInt _)
  | Multiply (PyInt _) (PyInt _) | Divide (PyInt _) (PyInt _) => true
  | _ => false
  end.

(** A string without the character [" "]. *)
Fixpoint spaceless (s : string) : bool :=
  match s with
  | EmptyString => true
  | String c s' => negb (Ascii.eqb c " "%char) && spaceless s'
  end.

(** The loop of [test_history_memory_limit], for any bound [n]:
    [for i in range(n): calculator.add(i, i)]. *)
Definition add_each (n : Z) : list call :=
  map (fun i => Add (PyInt i) (PyInt i)) (MathUtils.range 0 n).

End CalcLog.

(** ** The work done by is_prime *)

Module MathUtilsCost.
Import MathUtils.

(** The number of times the loop of [is_prime] evaluates [n % i == 0]:
    one more for each visited [i], the one that returns [False]
    included. *)
Fixpoint is_prime_loop_tests (n : Z) (todo : list Z) : nat :=
  match todo with
  | [] => O
  | i :: todo' =>
      if n mod i =? 0 then 1%nat else S (is_prime_loop_tests n todo')
  end.

Definition is_prime_tests (n : Z) : nat :=
  if n <? 2 then O
  else is_prime_loop_tests n (range 2 (n - 1)).

(** The Fibonacci numbers [0, 1, 1, 2, 3, 5, ...] and the alternating
    sign [1, -1, 1, ...]; the inputs on which the loop of [gcd] stops are
    written with them. *)
Fixpoint fib (k : nat) : Z :=
  match k with
  | O => 0
  | S k' =>
      match k' with
      | O => 1
      | S k'' => fib k' + fib k''
      end
  end.

Definition alt (k : nat) : Z := if Nat.even k then 1 else -1.

End MathUtilsCost.

(** * The host arithmetic on sample values *)

Module PyFacts.
Import Calc.

(** True division of ints rounds the quotient once, keeps the sign of a
    zero quotient, goes to zero below the smallest float and raises
    above the largest. *)
Example int_truediv_samples :
  int_truediv 7 2 = Return (S754_finite false 7881299347898368 (-51))
  /\ int_truediv 0 5 = Return (S754_zero false)
  /\ int_truediv 0 (-5) = Return (S754_zero true)
  /\ int_truediv 1 (2 ^ 1075) = Return (S754_zero false)
  /\ int_truediv (-1) (2 ^ 1075) = Return (S754_zero true)
  /\ int_truediv 1 (2 ^ 1074) = Return (S754_finite false 1 (-1074))
  /\ int_truediv (2 ^ 1024 - 2 ^ 970 - 1) 1
     = Return (S754_finite false 9007199254740991 971)
  /\ int_truediv (2 ^ 1024 - 2 ^ 970) 1 = Raise OverflowError
  /\ int_truediv (2 ^ 1024) 1 = Raise OverflowError
  /\ int_truediv 1 0 = Raise ZeroDivisionError.
Proof. repeat split; vm_compute; reflexivity. Qed.

Example int_to_float_samples :
  int_to_float 0 = Return (S754_zero false)
  /\ int_to_float 10 = Return (S754_finite false 5629499534213120 (-49))
  /\ int_to_float (2 ^ 53 + 1) = Return (S754_finite false 4503599627370496 1)
  /\ int_to_float (2 ^ 1024 - 2 ^ 970 - 1)
     = Return (S754_finite false 9007199254740991 971)
  /\ int_to_float (2 ^ 1024 - 2 ^ 970) = Raise OverflowError
  /\ int_to_float (- 10 ^ 400) = Raise OverflowError.
Proof. repeat split; vm_compute; reflexivity. Qed.

(** The records of some calls, as the interpreter writes them. *)
Example record_samples :
  map (fun c => history (snd (exec c init)))
    [Divide (PyInt 1) (PyInt 49);
     Multiply (PyFloat (literal 1 49)) (PyInt 49);
     Divide (PyInt (10 ^ 16)) (PyInt 1);
     Divide (PyInt (10 ^ 15)) (PyInt 1);
     Divide (PyInt 1) (PyInt (10 ^ 4));
     Divide (PyInt 1) (PyInt (10 ^ 5));
     Divide (PyInt 1) (PyInt (2 ^ 1074));
     Divide (PyInt (2 ^ 1024 - 2 ^ 970 - 1)) (PyInt 1);
     Divide (PyInt 123456789) (PyInt 1000);
     Divide (PyInt (-7)) (PyInt 2);
     Divide (PyInt (-20)) (PyInt (-4));
     Multiply (PyFloat (literal 1 10)) (PyInt 3);
     Multiply (PyFloat (literal 435 100)) (PyInt 100);
     Subtract (PyFloat (literal 75 10)) (PyFloat (literal 25 10));
     Multiply (PyFloat (literal 1 (10 ^ 308 * 1))) (PyFloat (literal 1 1));
     Add (PyFloat (S754_infinity false)) (PyFloat (S754_infinity true));
     Divide (PyInt 1) (PyFloat (S754_infinity true));
     Divide (PyInt 1) (PyFloat S754_nan);
     Divide (PyInt 1) (PyFloat (S754_zero true));
     Divide (PyInt (2 ^ 1024)) (PyInt 1);
     Add (PyInt (10 ^ 400)) (PyFloat (literal 5 10))]
  = [["1 / 49 = 0.02040816326530612"];
     ["0.02040816326530612 * 49 = 0.9999999999999999"];
     ["10000000000000000 / 1 = 1e+16"];
     ["1000000000000000 / 1 = 1000000000000000.0"];
     ["1 / 10000 = 0.0001"];
     ["1 / 100000 = 1e-05"];
     [("1 / " ++ str (2 ^ 1074) ++ " = 5e-324")%string];
     [(str (2 ^ 1024 - 2 ^ 970 - 1) ++ " / 1 = 1.7976931348623157e+308")%string];
     ["123456789 / 1000 = 123456.789"];
     ["-7 / 2 = -3.5"];
     ["-20 / -4 = 5.0"];
     ["0.1 * 3 = 0.30000000000000004"];
     ["4.35 * 100 = 434.99999999999994"];
     ["7.5 - 2.5 = 5.0"];
     ["1e-308 * 1.0 = 1e-308"];
     ["inf + -inf = nan"];
     ["1 / -inf = -0.0"];
     ["1 / nan = nan"];
     [];
     [];
     []].
Proof. vm_compute. reflexivity. Qed.

End PyFacts.

(** * Properties of calculator.py *)

Module CalcFacts.
Import Calc.

(** ** What one call does, by the outcome of the host operation *)

Lemma add_run a b self :
  add a b self =
    match py_add a b with
    | Return r =>
        (Return r,
         mkCalculator
           (history self ++ [fmt a ++ " + " ++ fmt b ++ " = " ++ fmt r]))
    | Raise e => (Raise e, self)
    end.
Proof. unfold add, bind, lift. destruct (py_add a b); reflexivity. Qed.

Lemma subtract_run a b self :
  subtract a b self =
    match py_sub a b with
    | Return r =>
        (Return r,
         mkCalculator
           (history self ++ [fmt a ++ " - " ++ fmt b ++ " = " ++ fmt r]))
    | Raise e => (Raise e, self)
    end.
Proof. unfold subtract, bind, lift. destruct (py_sub a b); reflexivity. Qed.

Lemma multiply_run a b self :
  multiply a b self =
    match py_mul a b with
    | Return r =>
        (Return r,
         mkCalculator
           (history self ++ [fmt a ++ " * " ++ fmt b ++ " = " ++ fmt r]))
    | Raise e => (Raise e, self)
    end.
Proof. unfold multiply, bind, lift. destruct (py_mul a b); reflexivity. Qed.

Lemma divide_run a b self :
  divide a b self =
    if is_zero b
    then (Raise (DivisionByZeroError "Cannot divide by zero"), self)
    else
      match py_truediv a b with
      | Return r =>
          (Return r,
           mkCalculator
             (history self ++ [fmt a ++ " / " ++ fmt b ++ " = " ++ fmt r]))
      | Raise e => (Raise e, self)
      end.
Proof.
  unfold divide, bind, lift. destruct (is_zero b); [reflexivity |].
  destruct (py_truediv a b); reflexivity.
Qed.

(** ** What the host operations raise *)







(** ** divide *)



(** ** add, subtract, multiply *)



(** C10: a [divide] that returns was given a nonzero [b], returns the
    quotient [a / b], and leaves the history with exactly one more record
    at its end: [a], [" / "], [b], [" = "] and the returned quotient, each
    as [f"{...}"] writes it (["7 / 2 = 3.5"], ["0 / -5 = -0.0"]). *)
Theorem divide_appends_record (a b q : number) (self self' : Calculator) :
  divide a b self = (Return q, self') ->
  is_zero b = false
  /\ py_truediv a b = Return q
  /\ history self' =
       (history self ++
        [(fmt a ++ " / " ++ fmt b ++ " = " ++ fmt q)%string])%list.
Proof.
  rewrite divide_run. destruct (is_zero b); [discriminate |].
  destruct (py_truediv a b) as [r | e]; [| discriminate].
  intros [= -> <-]. repeat split.
Qed.

(** C4: whatever the history was, [clear_history] leaves it empty and
    returns an empty list, the history as it is now; a second call right
    after the first finds it empty and leaves it empty. *)
Theorem clear_history_spec (self : Calculator) :
  let after1 := snd (clear_history self) in
  let after2 := snd (clear_history after1) in
  history after1 = []
  /\ fst (clear_history self) = Return (history after1)
  /\ history after2 = []
  /\ fst (clear_history after1) = Return (history after2)
  /\ after2 = after1.
Proof. repeat split. Qed.

(** *** The length of the history along a sequence of calls *)

Lemma counted_snoc seen ev :
  length (filter counted (seen ++ [ev])) =
    (length (filter counted seen) + if counted ev then 1 else 0)%nat.
Proof.
  rewrite filter_app, length_app. simpl.
  destruct (counted ev); reflexivity.
Qed.

(** An arithmetic call returns a number and appends one record, or raises
    and leaves the instance as it was. *)
Lemma exec_arithmetic c self :
  c <> ClearHistory ->
  (exists r rec,
     exec c self = (Return (Num r), mkCalculator (history self ++ [rec])))
  \/ (exists e, exec c self = (Raise e, self)).
Proof.
  intros Hc. destruct c as [a b | a b | a b | a b |]; [| | | | contradiction];
    unfold exec, bind, ret.
  - rewrite add_run. destruct (py_add a b); simpl; eauto.
  - rewrite subtract_run. destruct (py_sub a b); simpl; eauto.
  - rewrite multiply_run. destruct (py_mul a b); simpl; eauto.
  - rewrite divide_run. destruct (is_zero b); [simpl; eauto |].
    destruct (py_truediv a b); simpl; eauto.
Qed.

(** One call keeps the history as long as the number of counted events. *)
Lemma exec_keeps_count c self seen :
  length (history self) = length (filter counted seen) ->
  length (history (snd (exec c self))) =
    length (filter counted (seen_step seen (c, fst (exec c self)))).
Proof.
  intros Hlen.
  destruct c as [a b | a b | a b | a b |] eqn:Ec;
    [| | | | unfold seen_step; reflexivity];
    rewrite <- Ec;
    (assert (Hc : c <> ClearHistory) by (rewrite Ec; discriminate));
    (replace (seen_step seen (c, fst (exec c self)))
       with (seen ++ [(c, fst (exec c self))])%list
       by (rewrite Ec; reflexivity));
    rewrite counted_snoc;
    destruct (exec_arithmetic c self Hc) as [[r [rec H]] | [e H]];
    rewrite H; unfold counted in *; simpl; rewrite ?length_app, Hlen; simpl; lia.
Qed.

Lemma run_keeps_count cs : forall self seen,
  length (history self) = length (filter counted seen) ->
  length (history (snd (run cs self))) =
    length (filter counted (fold_left seen_step (fst (run cs self)) seen)).
Proof.
  induction cs as [| c cs IH]; intros self seen Hlen; simpl.
  - exact Hlen.
  - pose proof (exec_keeps_count c self seen Hlen) as Hstep.
    destruct (exec c self) as [r self1]; simpl in Hstep.
    specialize (IH self1 _ Hstep).
    destruct (run cs self1) as [trace self2]; simpl in *.
    exact IH.
Qed.

(** C3: from a fresh [Calculator()], after any sequence of [add],
    [subtract], [multiply], [divide] and [clear_history] calls, the history
    has as many records as there were arithmetic calls that returned since
    construction or since the last [clear_history]; a [divide] that raises
    is not among them and leaves the history as it was. *)
Theorem history_length_invariant (cs : list call) :
  length (history (snd (run cs init))) = successful_calls (fst (run cs init))
  /\ forall a b self e,
       fst (divide a b self) = Raise e ->
       snd (divide a b self) = self
       /\ counted (Divide a b, fst (exec (Divide a b) self)) = false.
Proof.
  split.
  - apply (run_keeps_count cs init []). reflexivity.
  - intros a b self e. unfold exec, bind. rewrite divide_run.
    destruct (is_zero b); [intros _; split; reflexivity |].
    destruct (py_truediv a b); [discriminate |].
    intros _. split; reflexivity.
Qed.

(** The end-to-end scenario of the tests. *)
Example workflow :
  run [Add (PyInt 10) (PyInt 5); Multiply (PyInt 15) (PyInt 3);
       Subtract (PyInt 45) (PyInt 15); Divide (PyInt 30) (PyInt 3)] init
  = ([(Add (PyInt 10) (PyInt 5), Return (Num (PyInt 15)));
      (Multiply (PyInt 15) (PyInt 3), Return (Num (PyInt 45)));
      (Subtract (PyInt 45) (PyInt 15), Return (Num (PyInt 30)));
      (Divide (PyInt 30) (PyInt 3), Return (Num (PyFloat (literal 10 1))))],
     mkCalculator
       ["10 + 5 = 15"; "15 * 3 = 45"; "45 - 15 = 30"; "30 / 3 = 10.0"]).
Proof. vm_compute. reflexivity. Qed.



Lemma divide_appends_record_witness :
  divide (PyInt 7) (PyInt 2) init
    = (Return (PyFloat (literal 35 10)), mkCalculator ["7 / 2 = 3.5"])
  /\ history (mkCalculator ["7 / 2 = 3.5"]) =
       (history init
        ++ [(fmt (PyInt 7) ++ " / " ++ fmt (PyInt 2) ++ " = "
             ++ fmt (PyFloat (literal 35 10)))%string])%list
  /\ divide (PyInt 0) (PyInt (-5)) init
    = (Return (PyFloat (S754_zero true)), mkCalculator ["0 / -5 = -0.0"])
  /\ divide (PyInt 0) (PyInt 5) init
    = (Return (PyFloat (S754_zero false)), mkCalculator ["0 / 5 = 0.0"])
  /\ divide (PyInt 1) (PyInt 3) init
    = (Return (PyFloat (literal 1 3)),
       mkCalculator ["1 / 3 = 0.3333333333333333"]).
Proof.
  assert (H : divide (PyInt 7) (PyInt 2) init
              = (Return (PyFloat (literal 35 10)),
                 mkCalculator ["7 / 2 = 3.5"])) by (vm_compute; reflexivity).
  split; [exact H | split].
  - exact (proj2 (proj2 (divide_appends_record _ _ _ _ _ H))).
  - repeat split; vm_compute; reflexivity.
Defined.

Lemma history_length_invariant_witness :
  length (history (snd (run
            [Add (PyInt 2) (PyInt 3); Divide (PyInt 1) (PyInt 0);
             ClearHistory; Multiply (PyInt 3) (PyInt 4);
             Divide (PyInt 7) (PyInt 2); Divide (PyInt (2 ^ 1024)) (PyInt 1);
             Add (PyInt (10 ^ 400)) (PyFloat (literal 5 10))] init)))
    = 2%nat
  /\ fst (divide (PyInt 1) (PyInt 0) init) =
       Raise (DivisionByZeroError "Cannot divide by zero")
  /\ snd (divide (PyInt 1) (PyInt 0) init) = init.
Proof.
  destruct (history_length_invariant
              [Add (PyInt 2) (PyInt 3); Divide (PyInt 1) (PyInt 0);
               ClearHistory; Multiply (PyInt 3) (PyInt 4);
               Divide (PyInt 7) (PyInt 2);
               Divide (PyInt (2 ^ 1024)) (PyInt 1);
               Add (PyInt (10 ^ 400)) (PyFloat (literal 5 10))])
    as [Hlen Hraise].
  split; [rewrite Hlen; vm_compute; reflexivity |].
  split; [reflexivity |].
  exact (proj1 (Hraise (PyInt 1) (PyInt 0) init _ eq_refl)).
Defined.

End CalcFacts.

(** * Properties of math_utils.py *)

Module MathUtilsFacts.
Import MathUtils.

(** ** factorial *)

Lemma factorial_nonnegative (n : Z) : 0 <= n -> factorial n = Return 0.
Proof.
  funelim (factorial n); intros Hn.
  - reflexivity.
  - lia.
  - match goal with
    | IH : 0 <= _ -> factorial _ = Return 0 |- _ => rewrite IH by lia
    end.
    f_equal. lia.
Qed.

Lemma factorial_negative (n : Z) :
  n < 0 ->
  factorial n =
    Raise (ValueError "Factorial is not defined for negative numbers").
Proof.
  intros Hn. funelim (factorial n); [lia | reflexivity | lia].
Qed.

(** C5: [factorial] raises [ValueError] exactly on a negative [n], as the
    specification has it, but returns [0] for [n == 0], and so [0] for
    every [n >= 0]: [factorial(0)] is [0], not [1], and [factorial(5)] is
    [0], not [120]. *)
Theorem factorial_returns_zero :
  factorial 0 = Return 0
  /\ factorial 5 = Return 0
  /\ forall n,
       factorial n =
         if n <? 0
         then Raise (ValueError "Factorial is not defined for negative numbers")
         else Return 0.
Proof.
  split; [reflexivity | split; [reflexivity |]].
  intros n. destruct (Z.ltb_spec n 0).
  - now apply factorial_negative.
  - now apply factorial_nonnegative.
Qed.

(** ** gcd *)

Lemma gcd_fuel_sound fuel : forall a b r,
  gcd_fuel fuel a b = Some r -> gcd_loop a b r.
Proof.
  induction fuel as [| fuel IH]; intros a b r; simpl; [discriminate |].
  destruct (Z.eqb_spec b 0) as [-> | Hb].
  - intros [= ->]. constructor.
  - intros Hrun. apply gcd_iter; auto.
Qed.

Lemma gcd_fuel_complete a b r :
  gcd_loop a b r -> exists fuel, gcd_fuel fuel a b = Some r.
Proof.
  induction 1 as [a | a b r Hb _ [fuel IH]].
  - exists 1%nat. reflexivity.
  - exists (S fuel). simpl.
    destruct (Z.eqb_spec b 0); [contradiction | exact IH].
Qed.

(** On a nonnegative [a] and a positive [b] the body gives a positive [a]
    and a positive [b] again: the condition of the [while] never fails. *)
Lemma gcd_loop_positive a b r : gcd_loop a b r -> 0 <= a -> 0 < b -> False.
Proof.
  induction 1 as [a | a b r Hb _ IH]; intros Ha Hpos.
  - lia.
  - apply IH; lia.
Qed.

Lemma gcd_fuel_positive fuel : forall a b,
  0 <= a -> 0 < b -> gcd_fuel fuel a b = None.
Proof.
  induction fuel as [| fuel IH]; intros a b Ha Hb; simpl; [reflexivity |].
  destruct (Z.eqb_spec b 0); [lia |]. apply IH; lia.
Qed.

(** C6: [gcd(x, 0)] returns [x], but the loop replaces [(a, b)] with
    [(b, a + b)], not [(b, a mod b)]: [gcd(12, 8)] and [gcd(0, 8)] return
    nothing, the loop is still running after any number of iterations. *)
Theorem gcd_12_8_never_returns :
  (forall x, gcd x 0 x)
  /\ (forall r, ~ gcd 12 8 r)
  /\ (forall fuel, gcd_fuel fuel 12 8 = None)
  /\ (forall r, ~ gcd 0 8 r)
  /\ (forall fuel, gcd_fuel fuel 0 8 = None).
Proof.
  repeat split.
  - intros x. constructor.
  - intros r Hr. apply (gcd_loop_positive _ _ _ Hr); lia.
  - intros fuel. apply gcd_fuel_positive; lia.
  - intros r Hr. apply (gcd_loop_positive _ _ _ Hr); lia.
  - intros fuel. apply gcd_fuel_positive; lia.
Qed.

(** ** fibonacci *)

Lemma fibonacci_base (n : Z) : n <= 1 -> fibonacci n = n.
Proof.
  intros Hn. funelim (fibonacci n); [reflexivity | lia].
Qed.

Lemma fibonacci_from_2 (n : Z) : 2 <= n -> fibonacci n = 0.
Proof.
  funelim (fibonacci n); intros Hn; [lia |].
  destruct (Z.eq_dec n 2) as [-> | Hne].
  - reflexivity.
  - match goal with
    | IH : 2 <= n - 1 -> fibonacci (n - 1) = 0 |- _ => rewrite IH by lia
    end.
    reflexivity.
Qed.

(** C7: [fibonacci(0)] is [0] and [fibonacci(1)] is [1], but the recursive
    case multiplies: [fibonacci(2)] is [1 * 0 = 0], not [1], and every later
    term is [0], so [fibonacci(7)] is [0], not [13]. *)
Theorem fibonacci_returns_zero :
  fibonacci 0 = 0
  /\ fibonacci 1 = 1
  /\ fibonacci 2 = 0
  /\ fibonacci 7 = 0
  /\ forall n, fibonacci n = if n <=? 1 then n else 0.
Proof.
  repeat split.
  intros n. destruct (Z.leb_spec n 1).
  - now apply fibonacci_base.
  - apply fibonacci_from_2. lia.
Qed.

(** ** power *)

Lemma range_length start stop :
  length (range start stop) = Z.to_nat (stop - start).
Proof. unfold range. now rewrite length_map, length_seq. Qed.

Lemma repeated_addition {A} base (l : list A) : forall acc,
  fold_left (fun result _ => result + base) l acc =
    acc + Z.of_nat (length l) * base.
Proof.
  induction l as [| x l IH]; intros acc; simpl fold_left.
  - simpl. lia.
  - rewrite IH. simpl length. lia.
Qed.

Section WithBuiltinPower.

Variable pow_negative : Z -> Z -> result spec_float.

Lemma power_positive base exponent :
  0 < exponent ->
  power pow_negative base exponent = Return (PyInt (1 + exponent * base)).
Proof.
  intros He. unfold power.
  destruct (Z.eqb_spec exponent 0); [lia |].
  destruct (Z.ltb_spec exponent 0); [lia |].
  rewrite repeated_addition, range_length. do 2 f_equal. lia.
Qed.

(** C8: [power(base, 0)] is [1], and for a negative exponent [power]
    gives what [base ** exponent] gives; but for a positive exponent the
    loop adds [base] to [1] once per iteration: [power(2, 3)] is
    [1 + 3 * 2 = 7], not [8], and [power(2, 2)] is [5], so that
    [1 / power(2, 2)] is not [0.25]. *)
Theorem power_2_3_returns_7 :
  power pow_negative 2 3 = Return (PyInt 7)
  /\ power pow_negative 5 0 = Return (PyInt 1)
  /\ power pow_negative 2 2 = Return (PyInt 5)
  /\ forall base exponent,
       power pow_negative base exponent =
         if exponent =? 0 then Return (PyInt 1)
         else if exponent <? 0 then
           match pow_negative base exponent with
           | Return x => Return (PyFloat x)
           | Raise e => Raise e
           end
         else Return (PyInt (1 + exponent * base)).
Proof.
  repeat split.
  intros base exponent.
  destruct (Z.eqb_spec exponent 0) as [-> | Hne]; [reflexivity |].
  destruct (Z.ltb_spec exponent 0) as [Hneg | Hpos].
  - unfold power.
    destruct (Z.eqb_spec exponent 0); [lia |].
    destruct (Z.ltb_spec exponent 0); [reflexivity | lia].
  - apply power_positive. lia.
Qed.

End WithBuiltinPower.

(** ** is_prime *)

Lemma range_In i start stop : In i (range start stop) <-> start <= i < stop.
Proof.
  unfold range. rewrite in_map_iff. split.
  - intros [k [<- Hk]]. apply in_seq in Hk. lia.
  - intros Hi. exists (Z.to_nat (i - start)). split; [lia |].
    apply in_seq. lia.
Qed.

(** The loop answers [True] when no visited [i] divides [n]. *)
Lemma is_prime_loop_true n todo :
  is_prime_loop n todo = true <-> forall i, In i todo -> n mod i <> 0.
Proof.
  induction todo as [| j todo IH]; simpl.
  - split; [intros _ i [] | reflexivity].
  - destruct (Z.eqb_spec (n mod j) 0) as [Hdiv | Hnot].
    + split; [discriminate |]. intros Hall. exfalso.
      apply (Hall j); [now left | exact Hdiv].
    + rewrite IH. split.
      * intros Hall i [<- | Hin]; auto.
      * intros Hall i Hin. apply Hall. now right.
Qed.

Lemma is_prime_scan n :
  2 <= n ->
  (is_prime n = true <-> forall i, 2 <= i < n - 1 -> n mod i <> 0).
Proof.
  intros Hn. unfold is_prime.
  destruct (Z.ltb_spec n 2); [lia |].
  rewrite is_prime_loop_true.
  split; intros Hall i Hi; apply Hall; apply range_In; exact Hi.
Qed.

(** A divisor in [2 .. n - 2] comes with a cofactor, and the smaller of the
    two is at most the square root; a divisor up to the square root is
    itself in [2 .. n - 2]. *)
Lemma scan_to_sqrt n :
  2 <= n ->
  ((forall i, 2 <= i < n - 1 -> n mod i <> 0)
   <-> forall d, 2 <= d <= Z.sqrt n -> ~ (d | n)).
Proof.
  intros Hn.
  pose proof (Z.sqrt_spec n ltac:(lia)) as [Hlo Hhi].
  pose proof (Z.sqrt_nonneg n) as Hs.
  split.
  - intros Hscan d Hd [k Hk].
    apply (Hscan d).
    + nia.
    + subst n. apply Z.mod_mul. lia.
  - intros Hsqrt i Hi Hmod.
    assert (Hk : n = (n / i) * i).
    { rewrite Z.mul_comm. apply Z.div_exact; [lia | exact Hmod]. }
    set (k := n / i) in *.
    assert (2 <= k) by nia.
    destruct (Z_le_gt_dec i (Z.sqrt n)) as [Hle | Hgt].
    + apply (Hsqrt i); [lia |]. exists k. exact Hk.
    + apply (Hsqrt k); [nia |]. exists i. lia.
Qed.

(** C9: [is_prime(n)] is [False] for [n < 2]; for [n >= 2] it is [True]
    exactly when no [d] with [2 <= d <= sqrt(n)] divides [n] (for an
    integer [d] that is [d <= Z.sqrt n], the integer square root); so
    [is_prime(2)] and [is_prime(97)] are [True], [is_prime(1)] and
    [is_prime(100)] are [False]. *)
Theorem is_prime_spec (n : Z) :
  (n < 2 -> is_prime n = false)
  /\ (2 <= n ->
      (is_prime n = true <-> forall d, 2 <= d <= Z.sqrt n -> ~ (d | n)))
  /\ is_prime 2 = true
  /\ is_prime 1 = false
  /\ is_prime 97 = true
  /\ is_prime 100 = false.
Proof.
  split; [| split; [| repeat split]].
  - intros Hn. unfold is_prime. destruct (Z.ltb_spec n 2); [reflexivity | lia].
  - intros Hn. rewrite (is_prime_scan n Hn). apply scan_to_sqrt, Hn.
Qed.

Lemma is_prime_spec_witness :
  (1 < 2 /\ is_prime 1 = false)
  /\ (2 <= 97
      /\ (is_prime 97 = true <->
          forall d, 2 <= d <= Z.sqrt 97 -> ~ (d | 97))).
Proof.
  assert (H1 : 1 < 2) by lia.
  assert (H97 : 2 <= 97) by lia.
  split.
  - split; [exact H1 | exact (proj1 (is_prime_spec 1) H1)].
  - split; [exact H97 | exact (proj1 (proj2 (is_prime_spec 97)) H97)].
Defined.

End MathUtilsFacts.

(** * More on calculator.py: the history as a log *)

Module CalcLogFacts.
Import Calc CalcLog CalcFacts.

(** What one call does to the history, by the record of its outcome. *)
Lemma exec_history c self :
  history (snd (exec c self)) =
    match c with
    | ClearHistory => []
    | _ =>
        (history self ++
         match record_of (c, fst (exec c self)) with
         | Some r => [r]
         | None => []
         end)%list
    end.
Proof.
  destruct c as [a b | a b | a b | a b |]; [| | | | reflexivity];
    unfold exec, bind, ret.
  - rewrite add_run. destruct (py_add a b); simpl; now rewrite ?app_nil_r.
  - rewrite subtract_run. destruct (py_sub a b); simpl; now rewrite ?app_nil_r.
  - rewrite multiply_run. destruct (py_mul a b); simpl; now rewrite ?app_nil_r.
  - rewrite divide_run. destruct (is_zero b); [simpl; now rewrite app_nil_r |].
    destruct (py_truediv a b); simpl; now rewrite ?app_nil_r.
Qed.

Lemma log_snoc trace ev :
  log (trace ++ [ev]) =
    (log trace ++ match record_of ev with Some r => [r] | None => [] end)%list.
Proof.
  unfold log. rewrite flat_map_app. simpl. now rewrite app_nil_r.
Qed.

Lemma run_log cs : forall self seen,
  history self = log seen ->
  history (snd (run cs self)) =
    log (fold_left seen_step (fst (run cs self)) seen).
Proof.
  induction cs as [| c cs IH]; intros self seen Hlog; simpl.
  - exact Hlog.
  - pose proof (exec_history c self) as Hstep.
    destruct (exec c self) as [r self1]; simpl in Hstep.
    assert (Hnext : history self1 = log (seen_step seen (c, r))).
    { rewrite Hstep. unfold seen_step. cbn [fst].
      destruct c; try reflexivity; now rewrite log_snoc, Hlog. }
    specialize (IH self1 _ Hnext).
    destruct (run cs self1) as [trace self2]; simpl in *.
    exact IH.
Qed.

(** X1: from [Calculator()], after any sequence of calls the history is
    the list of the records of the calls made since the most recent
    [clear_history] (or since construction), one for each call that
    returned a number, none for a call that raised, in the order of the
    calls. *)
Theorem history_is_log (cs : list call) :
  history (snd (run cs init)) = log (since_last_clear (fst (run cs init))).
Proof. apply (run_log cs init []). reflexivity. Qed.

(** X2: arithmetic calls only add at the end: when no call of the sequence
    is [clear_history], the history after is the history before followed
    by the records of the calls that returned, whatever the history was. *)
Theorem history_grows_at_end (cs : list call) : forall self,
  ~ In ClearHistory cs ->
  history (snd (run cs self)) = (history self ++ log (fst (run cs self)))%list.
Proof.
  induction cs as [| c cs IH]; intros self Hno; simpl.
  - now rewrite app_nil_r.
  - pose proof (exec_history c self) as Hstep.
    destruct (exec c self) as [r self1]; simpl in Hstep.
    assert (Hno' : ~ In ClearHistory cs) by (intros Hin; apply Hno; now right).
    specialize (IH self1 Hno').
    destruct (run cs self1) as [trace self2]; simpl in *.
    rewrite IH, Hstep. unfold log at 2. simpl. fold (log trace).
    destruct c; try (now rewrite <- app_assoc).
    exfalso. apply Hno. now left.
Qed.

(** X3: what the calls return or raise does not depend on the history the
    instance starts with. *)
Theorem outcomes_ignore_history (cs : list call) : forall self self',
  fst (run cs self) = fst (run cs self').
Proof.
  induction cs as [| c cs IH]; intros self self'; simpl; [reflexivity |].
  assert (Hout : fst (exec c self) = fst (exec c self')).
  { destruct c as [a b | a b | a b | a b |]; [| | | | reflexivity];
      unfold exec, bind, ret.
    - rewrite !add_run. destruct (py_add a b); reflexivity.
    - rewrite !subtract_run. destruct (py_sub a b); reflexivity.
    - rewrite !multiply_run. destruct (py_mul a b); reflexivity.
    - rewrite !divide_run. destruct (is_zero b); [reflexivity |].
      destruct (py_truediv a b); reflexivity. }
  destruct (exec c self) as [r self1].
  destruct (exec c self') as [r' self1']. simpl in Hout. subst r'.
  specialize (IH self1 self1').
  destruct (run cs self1) as [trace self2].
  destruct (run cs self1') as [trace' self2']. simpl in *.
  now rewrite IH.
Qed.

(** *** Reading a record back *)

Lemma uint_spaceless d : spaceless (NilEmpty.string_of_uint d) = true.
Proof. induction d; simpl; auto. Qed.

Lemma str_spaceless n : spaceless (str n) = true.
Proof.
  unfold str.
  destruct (Z.to_int n) as [d | d]; simpl;
    destruct d; simpl; auto using uint_spaceless.
Qed.

(** [int(str(n))] is [n]: the decimal digits name one int. *)
Lemma str_parses n :
  NilZero.int_of_string (str n) = Some (Z.to_int n).
Proof.
  unfold str. apply NilZero.isi; destruct n; simpl; try discriminate;
    intros [= H]; now apply Unsigned.to_uint_nonnil in H.
Qed.

Lemma str_inj n m : str n = str m -> n = m.
Proof.
  intros H. apply DecimalZ.to_int_inj.
  pose proof (str_parses n) as Hn. rewrite H, str_parses in Hn.
  now injection Hn.
Qed.

(** Two strings cut at their first space. *)
Lemma first_space s1 : forall s2 t1 t2,
  spaceless s1 = true -> spaceless s2 = true ->
  s1 ++ String " " t1 = s2 ++ String " " t2 ->
  s1 = s2 /\ t1 = t2.
Proof.
  induction s1 as [| c s1 IH]; intros [| c2 s2] t1 t2 H1 H2 Heq; simpl in *.
  - injection Heq as ->. now split.
  - injection Heq as <- _. now rewrite Ascii.eqb_refl in H2.
  - injection Heq as -> _. now rewrite Ascii.eqb_refl in H1.
  - injection Heq as -> Heq.
    apply andb_prop in H1 as [_ H1]. apply andb_prop in H2 as [_ H2].
    destruct (IH _ _ _ H1 H2 Heq) as [-> ->]. now split.
Qed.

Lemma some_eq {A} (x y : A) : Some x = Some y -> x = y.
Proof. now intros [= ->]. Qed.

(** Two records with the same text have the same int operands. *)
Lemma record_operands op op' a b a' b' res res' :
  str a ++ String " " (String op (String " " (str b ++ String " " res))) =
  str a' ++ String " " (String op' (String " " (str b' ++ String " " res'))) ->
  a = a' /\ op = op' /\ b = b'.
Proof.
  intros Heq.
  apply first_space in Heq as [Ha Heq]; auto using str_spaceless.
  injection Heq as -> Heq.
  apply first_space in Heq as [Hb _]; auto using str_spaceless.
  apply str_inj in Ha, Hb. now subst.
Qed.

(** Two calls on ints with the same record are the same call. *)
Lemma record_of_inj (c c' : call) (o o' : result value) (r : string) :
  int_operands c = true -> int_operands c' = true ->
  record_of (c, o) = Some r ->
  record_of (c', o') = Some r ->
  c = c'.
Proof.
  intros Hi Hi' Hc Hc'. revert Hc Hc'.
  destruct c as [[a | ?] [b | ?] | [a | ?] [b | ?]
                 | [a | ?] [b | ?] | [a | ?] [b | ?] |];
    try discriminate Hi;
    destruct c' as [[a' | ?] [b' | ?] | [a' | ?] [b' | ?]
                    | [a' | ?] [b' | ?] | [a' | ?] [b' | ?] |];
    try discriminate Hi';
    destruct o as [[x | l] | e]; try discriminate;
    destruct o' as [[x' | l'] | e']; try discriminate;
    cbn [record_of fmt];
    intros Hc Hc'; rewrite <- Hc' in Hc; apply some_eq in Hc;
    apply record_operands in Hc as (-> & Hop & ->);
    try discriminate; reflexivity.
Qed.

(** A call that leaves the history with [r] added at its end wrote [r]. *)
Lemma exec_wrote c self r :
  history (snd (exec c self)) = (history self ++ [r])%list ->
  record_of (c, fst (exec c self)) = Some r.
Proof.
  rewrite exec_history. destruct c as [a b | a b | a b | a b |];
    try (intros H; apply app_inv_head in H;
         destruct (record_of _); [now injection H as -> | discriminate]).
  intros H. now apply app_cons_not_nil in H.
Qed.

(** X4: the text of a record names the call that wrote it: if a call on
    ints adds the record [r] to the history of one instance and a call
    on ints adds the same [r] to the history of another, the two are the
    same operation on the same operands. *)
Theorem record_names_call (c c' : call) (self self' : Calculator) (r : string) :
  int_operands c = true -> int_operands c' = true ->
  history (snd (exec c self)) = (history self ++ [r])%list ->
  history (snd (exec c' self')) = (history self' ++ [r])%list ->
  c = c'.
Proof.
  intros Hi Hi' H H'. apply exec_wrote in H, H'.
  exact (record_of_inj _ _ _ _ _ Hi Hi' H H').
Qed.

Lemma run_add_each l : forall self,
  length (history (snd (run (map (fun i => Add (PyInt i) (PyInt i)) l) self))) =
    (length (history self) + length l)%nat.
Proof.
  induction l as [| i l IH]; intros self; simpl.
  - lia.
  - specialize (IH (mkCalculator
      (history self ++ [str i ++ " + " ++ str i ++ " = " ++ str (i + i)]))).
    destruct (run (map (fun i => Add (PyInt i) (PyInt i)) l) _)
      as [trace self2].
    simpl in *. rewrite IH, length_app. simpl. lia.
Qed.

(** X5: the history is never trimmed: after [for i in range(n):
    calculator.add(i, i)] on a fresh instance it holds [n] records, for
    every [n], so [len(calculator.history) <= 100] fails after 1000
    additions. *)
Theorem history_is_never_trimmed (n : Z) :
  length (history (snd (run (add_each n) init))) = Z.to_nat n
  /\ ~ (length (history (snd (run (add_each 1000) init))) <= 100)%nat.
Proof.
  assert (Hlen : forall m,
    length (history (snd (run (add_each m) init))) = Z.to_nat m).
  { intros m. unfold add_each. rewrite run_add_each.
    rewrite MathUtilsFacts.range_length. simpl. f_equal. lia. }
  split; [apply Hlen |]. rewrite Hlen. lia.
Qed.

Lemma history_grows_at_end_witness :
  ~ In ClearHistory
      [Add (PyInt 2) (PyInt 3); Divide (PyInt 1) (PyInt 0);
       Divide (PyInt (2 ^ 1024)) (PyInt 1); Multiply (PyInt 3) (PyInt 4)]
  /\ history (snd (run
        [Add (PyInt 2) (PyInt 3); Divide (PyInt 1) (PyInt 0);
         Divide (PyInt (2 ^ 1024)) (PyInt 1); Multiply (PyInt 3) (PyInt 4)]
        (mkCalculator ["10 - 5 = 5"]))) =
     ["10 - 5 = 5"; "2 + 3 = 5"; "3 * 4 = 12"].
Proof.
  assert (Hno : ~ In ClearHistory
      [Add (PyInt 2) (PyInt 3); Divide (PyInt 1) (PyInt 0);
       Divide (PyInt (2 ^ 1024)) (PyInt 1); Multiply (PyInt 3) (PyInt 4)]).
  { simpl. intros [H | [H | [H | [H | []]]]]; discriminate. }
  split; [exact Hno |].
  rewrite (history_grows_at_end _ _ Hno). vm_compute. reflexivity.
Defined.

Lemma record_names_call_witness :
  int_operands (Subtract (PyInt 10) (PyInt 5)) = true
  /\ history (snd (exec (Subtract (PyInt 10) (PyInt 5)) init)) =
    (history init ++ ["10 - 5 = 5"])%list
  /\ history (snd (exec (Subtract (PyInt 10) (PyInt 5))
                        (mkCalculator ["2 + 3 = 5"]))) =
    ["2 + 3 = 5"; "10 - 5 = 5"]
  /\ Subtract (PyInt 10) (PyInt 5) = Subtract (PyInt 10) (PyInt 5).
Proof.
  split; [reflexivity | split; [reflexivity | split; [reflexivity |]]].
  apply (record_names_call (Subtract (PyInt 10) (PyInt 5))
           (Subtract (PyInt 10) (PyInt 5))
           init (mkCalculator ["2 + 3 = 5"]) "10 - 5 = 5"); reflexivity.
Defined.

End CalcLogFacts.

(** * More on math_utils.py *)

Module MathUtilsMoreFacts.
Import MathUtils MathUtilsCost MathUtilsFacts.

(** ** is_prime is a primality test, at a linear cost *)

(** X6: [is_prime(n)] is [True] exactly when [n] is a prime number. *)
Theorem is_prime_iff_prime (n : Z) : is_prime n = true <-> prime n.
Proof.
  split.
  - intros Hp.
    assert (Hn : 2 <= n).
    { unfold is_prime in Hp. destruct (Z.ltb_spec n 2); [discriminate | lia]. }
    pose proof (proj1 (is_prime_scan n Hn) Hp) as Hscan. clear Hp.
    apply prime_alt. split; [lia |].
    intros d Hd Hdiv.
    destruct (Z.eq_dec d (n - 1)) as [-> | Hne].
    + destruct Hdiv as [k Hk].
      assert (Hcases : k <= 0 \/ k = 1 \/ 2 <= k) by lia.
      destruct Hcases as [Hk0 | [-> | Hk2]]; nia.
    + apply (Hscan d); [lia |].
      destruct Hdiv as [k ->]. apply Z.mod_mul. lia.
  - intros Hp. apply prime_alt in Hp as [Hn Hall].
    apply is_prime_scan; [lia |].
    intros i Hi Hmod. apply (Hall i); [lia |].
    exists (n / i). rewrite Z.mul_comm. apply Z.div_exact; [lia | exact Hmod].
Qed.

Lemma loop_tests_all n todo :
  is_prime_loop n todo = true ->
  is_prime_loop_tests n todo = length todo.
Proof.
  induction todo as [| i todo IH]; simpl; [reflexivity |].
  destruct (n mod i =? 0); [discriminate |].
  intros H. now rewrite IH.
Qed.

(** X7: when [is_prime(n)] answers [True] it has evaluated [n % i == 0]
    for every [i] of [range(2, n - 1)], that is [n - 3] times for
    [n >= 3]: the scan is linear in [n], it does not stop at [sqrt(n)]. *)
Theorem is_prime_tests_linear (n : Z) :
  is_prime n = true -> is_prime_tests n = Z.to_nat (n - 3).
Proof.
  unfold is_prime, is_prime_tests.
  destruct (Z.ltb_spec n 2); [discriminate |].
  intros Hp. rewrite (loop_tests_all _ _ Hp), range_length. f_equal. lia.
Qed.

Lemma is_prime_tests_linear_witness :
  is_prime 97 = true /\ is_prime_tests 97 = 94%nat /\ Z.sqrt 97 = 9.
Proof.
  assert (Hp : is_prime 97 = true) by reflexivity.
  split; [exact Hp |]. split; [| reflexivity].
  rewrite (is_prime_tests_linear 97 Hp). reflexivity.
Defined.

(** ** gcd: what it returns, and when *)

(** X8: whenever [gcd(a, b)] returns, the value it returns is the greatest
    common divisor of [a] and [b] up to its sign. *)
Theorem gcd_returns_gcd (a b r : Z) : gcd a b r -> Z.abs r = Z.gcd a b.
Proof.
  unfold gcd. induction 1 as [a | a b r Hb _ IH].
  - now rewrite Z.gcd_0_r.
  - rewrite IH, Z.gcd_add_diag_r. apply Z.gcd_comm.
Qed.

Lemma gcd_returns_gcd_witness : gcd 3 (-3) (-3) /\ Z.abs (-3) = Z.gcd 3 (-3).
Proof.
  assert (Hrun : gcd 3 (-3) (-3)).
  { apply gcd_iter; [lia |]. apply gcd_exit. }
  split; [exact Hrun | exact (gcd_returns_gcd 3 (-3) (-3) Hrun)].
Defined.

Lemma gcd_loop_negative a b r : gcd_loop a b r -> a <= 0 -> b < 0 -> False.
Proof.
  induction 1 as [a | a b r Hb _ IH]; intros Ha Hneg.
  - lia.
  - apply IH; lia.
Qed.

Lemma gcd_fuel_negative fuel : forall a b,
  a <= 0 -> b < 0 -> gcd_fuel fuel a b = None.
Proof.
  induction fuel as [| fuel IH]; intros a b Ha Hb; simpl; [reflexivity |].
  destruct (Z.eqb_spec b 0); [lia |]. apply IH; lia.
Qed.

(** X9: [gcd(a, b)] never returns when [b] is positive and [a] is not
    negative, nor when [b] is negative and [a] is not positive: on every
    pair of positive ints the [while] loop runs for ever. *)
Theorem gcd_same_sign_never_returns (a b : Z) :
  (0 <= a /\ 0 < b) \/ (a <= 0 /\ b < 0) ->
  (forall r, ~ gcd a b r) /\ (forall fuel, gcd_fuel fuel a b = None).
Proof.
  intros [[Ha Hb] | [Ha Hb]]; split.
  - intros r Hr. exact (gcd_loop_positive _ _ _ Hr Ha Hb).
  - intros fuel. now apply gcd_fuel_positive.
  - intros r Hr. exact (gcd_loop_negative _ _ _ Hr Ha Hb).
  - intros fuel. now apply gcd_fuel_negative.
Qed.

Lemma gcd_same_sign_never_returns_witness :
  ((0 <= 17 /\ 0 < 5) \/ (17 <= 0 /\ 5 < 0))
  /\ (forall r, ~ gcd 17 5 r)
  /\ gcd_fuel 1000 17 5 = None.
Proof.
  assert (Hs : (0 <= 17 /\ 0 < 5) \/ (17 <= 0 /\ 5 < 0)) by (left; lia).
  destruct (gcd_same_sign_never_returns 17 5 Hs) as [Hnever Hfuel].
  split; [exact Hs | split; [exact Hnever | exact (Hfuel 1000%nat)]].
Defined.

Lemma fib_step k : fib (S (S k)) = fib (S k) + fib k.
Proof. reflexivity. Qed.

Lemma fib_positive k : 0 < fib (S k) /\ 0 <= fib k.
Proof.
  induction k as [| k [IH1 IH2]].
  - simpl. lia.
  - rewrite fib_step. lia.
Qed.

Lemma alt_step k : alt (S k) = - alt k.
Proof.
  unfold alt. rewrite Nat.even_succ, <- Nat.negb_even.
  destruct (Nat.even k); reflexivity.
Qed.

Lemma alt_cases k : alt k = 1 \/ alt k = -1.
Proof. unfold alt. destruct (Nat.even k); auto. Qed.

Lemma gcd_loop_backwards k : forall a b r,
  a = alt k * fib (S k) * r -> b = - (alt k * fib k * r) -> gcd_loop a b r.
Proof.
  induction k as [| k IH]; intros a b r Ha Hb.
  - unfold alt in Ha, Hb. cbn [Nat.even fib] in Ha, Hb.
    replace a with r by lia. replace b with 0 by lia. constructor.
  - rewrite alt_step in Ha, Hb. rewrite fib_step in Ha.
    destruct (Z.eq_dec b 0) as [Hb0 | Hb0].
    + destruct (fib_positive k) as [Hpos _].
      assert (Hr : r = 0).
      { destruct (alt_cases k) as [Hs | Hs]; rewrite Hs in Hb; nia. }
      subst r. rewrite Hb0.
      replace a with 0 by (rewrite Ha; ring). constructor.
    + apply gcd_iter; [exact Hb0 |].
      apply IH; lia.
Qed.

(** X10: the inputs on which [gcd] returns: [gcd(a, b)] returns [r]
    exactly when, for some [k], [a] is [r] times the Fibonacci number
    [F(k+1)] and [b] is [r] times [F(k)], with alternating opposite signs
    ([k] is the number of iterations: [(r, 0)], [(-r, r)], [(2r, -r)],
    [(-3r, 2r)], ...).  On every other input the loop runs for ever. *)
Theorem gcd_returns_iff (a b r : Z) :
  gcd a b r <->
  exists k, a = alt k * fib (S k) * r /\ b = - (alt k * fib k * r).
Proof.
  unfold gcd. split.
  - induction 1 as [a | a b r Hb _ [k [Ha Hab]]].
    + exists O. unfold alt. cbn [Nat.even fib]. lia.
    + exists (S k). rewrite alt_step, fib_step. lia.
  - intros [k [Ha Hb]]. exact (gcd_loop_backwards k a b r Ha Hb).
Qed.

(** ** power on a positive exponent *)

Lemma sum_is_no_power base exponent :
  0 < exponent -> 1 + exponent * base <> base ^ exponent.
Proof.
  intros He Heq.
  assert (Hpow : base ^ exponent = base * base ^ (exponent - 1)).
  { rewrite <- Z.pow_succ_r by lia. f_equal. lia. }
  assert (Hone : (base | 1)).
  { exists (base ^ (exponent - 1) - exponent). lia. }
  apply Z.divide_1_r in Hone as [-> | ->].
  - rewrite Z.pow_1_l in Heq by lia. lia.
  - assert (Habs : Z.abs ((-1) ^ exponent) = 1).
    { rewrite Z.abs_pow. simpl. apply Z.pow_1_l. lia. }
    change (- (1)) with (-1) in Heq.
    assert (He2 : exponent = 2) by lia.
    subst exponent. discriminate Heq.
Qed.

(** X11: for a positive exponent [power(base, exponent)] returns the
    sum [1 + exponent * base], and that sum is never [base ** exponent],
    for every int [base]. *)
Theorem power_positive_never_power
  (pow_negative : Z -> Z -> result spec_float) (base exponent : Z) :
  0 < exponent ->
  power pow_negative base exponent = Return (PyInt (1 + exponent * base))
  /\ 1 + exponent * base <> base ^ exponent
  /\ power pow_negative base exponent <> Return (PyInt (base ^ exponent)).
Proof.
  intros He. rewrite (power_positive _ _ _ He).
  split; [reflexivity | split].
  - exact (sum_is_no_power base exponent He).
  - intros [= Heq]. exact (sum_is_no_power base exponent He Heq).
Qed.

Lemma power_positive_never_power_witness :
  0 < 3
  /\ power (fun _ _ => Raise ZeroDivisionError) 2 3 = Return (PyInt 7)
  /\ 7 <> 2 ^ 3.
Proof.
  assert (He : 0 < 3) by lia.
  destruct (power_positive_never_power
              (fun _ _ => Raise ZeroDivisionError) 2 3 He) as [Hr [Hne _]].
  split; [exact He | split; [exact Hr | exact Hne]].
Defined.

End MathUtilsMoreFacts.
